(** * Flow Control XBlock: a shallow embedding of [flow_control/flow.py]

    The module is Python 2 code: [map] and [filter] return lists (their
    results are passed to [len] and indexed), [reduce] is the builtin, and
    [/] between two [int]s is floor division.  Scores and thresholds are
    modelled at the type [int], as [Z]; Python's floor division is [Z.div].
    The scores client of the host may deliver [float]s instead; no
    statement below turns on the rounding of the quotient.

    The fields of the block hold text.  A [string] stands for a text whose
    characters are code points below 256, one [ascii] each.

    Python exceptions are the left summand of ExtLib's [sum] monad.  The
    host runtime (course key, usage keys, the scores client) is not part of
    the repository and is taken as a record of functions. *)

From Stdlib Require Import ZArith List String Ascii Bool Lia.
From Stdlib Require Import DecimalString DecimalZ.
From ExtLib Require Import Structures.Monad Structures.MonadExc.
From ExtLib Require Import Data.Monads.EitherMonad.
Import ListNotations.
Import MonadNotation.
Local Open Scope monad_scope.
Local Open Scope string_scope.
Local Open Scope Z_scope.

(** ** Python values and exceptions *)

Inductive exn : Type :=
| AttributeError
| IndexError
| TypeError
| ZeroDivisionError.

Definition result : Type -> Type := sum exn.

(** The named tuple [ScoresClient.Score]. *)
Record Score : Type := mkScore { correct : Z; total : Z }.

(** What a variable of [condition_on_problem_list] can hold: a score
    tuple or a number. *)
Inductive value : Type :=
| VScore (s : Score)
| VNum (n : Z).

(** [x.correct] and [x.total]: only a score tuple has the attributes. *)
Definition getattr_correct (x : value) : result Z :=
  match x with
  | VScore s => ret (correct s)
  | VNum _ => raise AttributeError
  end.

Definition getattr_total (x : value) : result Z :=
  match x with
  | VScore s => ret (total s)
  | VNum _ => raise AttributeError
  end.

(** Truth value of an object: a number is true when it is not zero, a
    two-field tuple always. *)
Definition truthy (v : value) : bool :=
  match v with
  | VNum n => negb (n =? 0)
  | VScore _ => true
  end.

(** [a / b]: floor division on [int]s, [ZeroDivisionError] on a zero
    divisor, [TypeError] when an operand is a tuple. *)
Definition py_div (a b : value) : result Z :=
  match a, b with
  | VNum a, VNum b =>
      if b =? 0 then raise ZeroDivisionError else ret (a / b)
  | _, _ => raise TypeError
  end.

(** The builtin [reduce(function, sequence)] without initial value. *)
Fixpoint reduce_from (f : value -> value -> result value)
    (acc : value) (l : list value) : result value :=
  match l with
  | [] => ret acc
  | y :: l' => acc' <- f acc y ;; reduce_from f acc' l'
  end.

Definition reduce (f : value -> value -> result value)
    (l : list value) : result value :=
  match l with
  | [] => raise TypeError
  | x :: l' => reduce_from f x l'
  end.

(** ** Strings *)

(** The whitespace of a text, among the code points below 256: the
    controls U+0009 to U+000D and U+001C to U+001F, the blank U+0020,
    the next-line control U+0085 and the no-break space U+00A0. *)
Definition isspace (c : ascii) : bool :=
  let n := nat_of_ascii c in
  ((Nat.leb 9 n && Nat.leb n 13) || (Nat.leb 28 n && Nat.leb n 32)
   || Nat.eqb n 133 || Nat.eqb n 160)%bool.

(** [split()] with no separator: runs of whitespace separate the words,
    and no empty word is produced. *)

Fixpoint split_from (word : option string) (s : string) : list string :=
  match s with
  | EmptyString =>
      match word with Some w => [w] | None => [] end
  | String c s' =>
      if isspace c then
        match word with
        | Some w => w :: split_from None s'
        | None => split_from None s'
        end
      else
        match word with
        | Some w => split_from (Some (w ++ String c EmptyString)) s'
        | None => split_from (Some (String c EmptyString)) s'
        end
  end.

Definition split (s : string) : list string := split_from None s.

(** [s.split(sep)[-1]]: what follows the last occurrence of [sep], the
    whole string when there is none.  (The only separator used is
    ["course"], which cannot overlap itself.) *)
Fixpoint after_last (sep s : string) : option string :=
  match s with
  | EmptyString => None
  | String _ s' =>
      match after_last sep s' with
      | Some r => Some r
      | None =>
          if String.prefix sep s
          then Some (String.substring (String.length sep)
                       (String.length s - String.length sep) s)
          else None
      end
  end.

Definition split_last (sep s : string) : string :=
  match after_last sep s with
  | Some r => r
  | None => s
  end.

(** ** The block *)

(** The fields of [FlowCheckPointXblock].  A [String] field declared
    without a default holds [None] until it is set. *)
Record FlowCheckPointXblock : Type := mkBlock {
  display_name : string;
  action : string;
  condition : string;
  operator : string;
  ref_value : Z;
  tab_to : Z;
  target_url : option string;
  target_id : option string;
  message : string;
  problem_id : option string;
  list_of_problems : option string
}.

Definition default_block : FlowCheckPointXblock :=
  {| display_name := "Flow Control";
     action := "Display a message";
     condition := "Grade of a problem";
     operator := "equal to";
     ref_value := 0;
     tab_to := 1;
     target_url := None;
     target_id := None;
     message := "";
     problem_id := None;
     list_of_problems := None |}.

Definition _actions_generator (block : FlowCheckPointXblock) : list string :=
  ["Display a message";
   "Redirect using jump_to_id";
   "Redirect to a given unit in the same subsection";
   "Redirect to a given URL"].

Definition _conditions_generator (block : FlowCheckPointXblock) : list string :=
  ["Grade of a problem";
   "Average grade of a list of problems"].

Definition _operators_generator (block : FlowCheckPointXblock) : list string :=
  ["equal to";
   "not equal to";
   "less than or equal to";
   "less than";
   "greater than or equal to";
   "greater than"].

(** ** Comparison *)

(** The value of the local variable [percentage] of [compare_scores]:
    [(correct / total) * 100]. *)
Definition percentage (correct total : value) : result Z :=
  q <- py_div correct total ;; ret (q * 100).

(** [compare_scores]: every [if] on the operator is executed in turn and
    may overwrite [result]. *)
Definition compare_scores (self : FlowCheckPointXblock)
    (correct total : value) : result bool :=
  let result := false in
  if truthy total then
    percentage <- percentage correct total ;;
    let result :=
      if String.eqb (operator self) "equal to"
      then percentage =? ref_value self else result in
    let result :=
      if String.eqb (operator self) "not equal to"
      then negb (percentage =? ref_value self) else result in
    let result :=
      if String.eqb (operator self) "less than or equal to"
      then percentage <=? ref_value self else result in
    let result :=
      if String.eqb (operator self) "greater than or equal to"
      then percentage >=? ref_value self else result in
    let result :=
      if String.eqb (operator self) "less than"
      then percentage <? ref_value self else result in
    let result :=
      if String.eqb (operator self) "greater than"
      then percentage >? ref_value self else result in
    ret result
  else ret result.

(** ** Validation *)

Inductive message_type : Type := WARNING | ERROR.

Record ValidationMessage : Type :=
  mkValidationMessage { type : message_type; text : string }.

(** A [Validation] object is the list of its messages; [add] appends. *)
Definition Validation : Type := list ValidationMessage.

Definition add (validation : Validation) (m : ValidationMessage) : Validation :=
  (validation ++ [m])%list.

Definition validate_field_data (self : FlowCheckPointXblock)
    (validation : Validation) (data : FlowCheckPointXblock) : Validation :=
  let validation :=
    if tab_to data <=? 0 then
      add validation
        (mkValidationMessage ERROR
           "Tab to redirect to must be greater than zero")
    else validation in
  let validation :=
    if ((ref_value data <? 0) || (ref_value data >? 100))%bool then
      add validation
        (mkValidationMessage ERROR
           "Score percentage field must be an integer number between 0 and 100")
    else validation in
  validation.

(** ** The host runtime *)

Definition UsageKey : Type := string.

(** What the block reads from its host: the course key
    ([to_deprecated_string], [BLOCK_PREFIX], [BLOCK_TYPE_PREFIX]),
    [UsageKey.from_string] ([None] when it raises) and the fetched
    scores of the current user ([ScoresClient.get]). *)
Record Host : Type := mkHost {
  to_deprecated_string : string;
  BLOCK_PREFIX : string;
  BLOCK_TYPE_PREFIX : string;
  from_string : string -> option UsageKey;
  scores_client_get : option UsageKey -> option Score
}.

Definition get_location_string (host : Host) (self : FlowCheckPointXblock)
    (locator : string) : string :=
  let course_prefix := "course" in
  let resource := "problem" in
  let course_url := to_deprecated_string host in
  let course_url := split_last course_prefix course_url in
  BLOCK_PREFIX host ++ course_url ++ "+" ++ BLOCK_TYPE_PREFIX host ++ "@"
    ++ resource ++ "+" ++ BLOCK_PREFIX host ++ "@" ++ locator.

(** [filter(None, scores)]: a score tuple is never false, so exactly the
    [None] entries are dropped. *)
Fixpoint filter_None (scores : list (option Score)) : list Score :=
  match scores with
  | [] => []
  | Some s :: l => s :: filter_None l
  | None :: l => filter_None l
  end.

(** [lambda x, y: x.correct + y.correct] and its twin for [total]. *)
Definition add_correct (x y : value) : result value :=
  a <- getattr_correct x ;; b <- getattr_correct y ;; ret (VNum (a + b)).

Definition add_total (x y : value) : result value :=
  a <- getattr_total x ;; b <- getattr_total y ;; ret (VNum (a + b)).

(** The two aggregation steps of [condition_on_problem_list], on the
    filtered scores; [ct] is the pair of the variables [correct] and
    [total], both initially [0]. *)
Definition aggregate (scores : list Score) : result (value * value) :=
  let scores_reducible_length := 2%nat in
  let ct := (VNum 0, VNum 0) in
  ct <-
    (if (negb (Nat.eqb (List.length scores) 0)
         && Nat.leb scores_reducible_length (List.length scores))%bool
     then
       c <- reduce add_correct (map VScore scores) ;;
       t <- reduce add_total (map VScore scores) ;;
       ret (c, t)
     else ret ct) ;;
  if (negb (Nat.eqb (List.length scores) 0)
      && Nat.eqb (List.length scores) 1)%bool
  then
    match nth_error scores 0 with
    | Some s => ret (VNum (correct s), VNum (total s))
    | None => raise IndexError
    end
  else ret ct.

(** The first lines of [condition_on_problem_list]: the scores fetched
    for the problems, [None] entries dropped.  The host's calls are taken
    to return. *)
Definition fetched_scores (host : Host) (self : FlowCheckPointXblock)
    (problems : list string) : list Score :=
  let _get_usage_key problem :=
    from_string host (get_location_string host self problem) in
  let usages_keys := map _get_usage_key problems in
  let scores := map (scores_client_get host) usages_keys in
  filter_None scores.

Definition condition_on_problem_list (host : Host)
    (self : FlowCheckPointXblock) (problems : list string) : result bool :=
  let scores := fetched_scores host self problems in
  ct <- aggregate scores ;;
  compare_scores self (fst ct) (snd ct).

(** [self.problem_id.split()]: the field may still hold [None]. *)
Definition field_split (field : option string) : result (list string) :=
  match field with
  | Some s => ret (split s)
  | None => raise AttributeError
  end.

Definition get_condition_status (host : Host)
    (self : FlowCheckPointXblock) : result bool :=
  let problems := [] in
  problems <-
    (if String.eqb (condition self) "Grade of a problem"
     then field_split (problem_id self) else ret problems) ;;
  problems <-
    (if String.eqb (condition self) "Average grade of a list of problems"
     then field_split (list_of_problems self) else ret problems) ;;
  condition_on_problem_list host self problems.

(** ** The JSON handler *)

#[local] Unset Elimination Schemes.
Inductive json : Type :=
| JNull
| JBool (b : bool)
| JNumber (n : Z)
| JString (s : string)
| JArray (l : list json)
| JObject (l : list (string * json)).
#[local] Set Elimination Schemes.

Definition condition_status_handler (host : Host)
    (self : FlowCheckPointXblock) (data : json) (suffix : string)
    : result json :=
  status <- get_condition_status host self ;;
  ret (JObject [("success", JBool true); ("status", JBool status)]).

(** ** The specification's reading of the comparison *)

(** The six operator names paired with the relations they stand for, in
    the order the specification lists them. *)
Definition operator_relations : list (string * (Z -> Z -> bool)) :=
  [("equal to", Z.eqb);
   ("not equal to", fun p r => negb (p =? r));
   ("less than or equal to", Z.leb);
   ("less than", Z.ltb);
   ("greater than or equal to", Z.geb);
   ("greater than", Z.gtb)].

Fixpoint assoc {A : Type} (key : string) (l : list (string * A)) : option A :=
  match l with
  | [] => None
  | (k, v) :: l' => if String.eqb key k then Some v else assoc key l'
  end.

Definition relation_of (op : string) : option (Z -> Z -> bool) :=
  assoc op operator_relations.

(** The simple-average aggregate: all [correct] values summed, all
    [total] values summed. *)
Definition sum_correct (scores : list Score) : Z :=
  fold_right Z.add 0 (map correct scores).

Definition sum_total (scores : list Score) : Z :=
  fold_right Z.add 0 (map total scores).

(** A block with the default fields and the given comparison. *)
Definition block_with_operator (op : string) (ref : Z) : FlowCheckPointXblock :=
  {| display_name := display_name default_block;
     action := action default_block;
     condition := condition default_block;
     operator := op;
     ref_value := ref;
     tab_to := tab_to default_block;
     target_url := target_url default_block;
     target_id := target_id default_block;
     message := message default_block;
     problem_id := problem_id default_block;
     list_of_problems := list_of_problems default_block |}.

(** A block with the default fields, the given condition on the given
    problem ids (stored in both id fields) and the given comparison. *)
Definition block_on_problems (cond : string) (ids : option string)
    (op : string) (ref : Z) : FlowCheckPointXblock :=
  {| display_name := display_name default_block;
     action := action default_block;
     condition := cond;
     operator := op;
     ref_value := ref;
     tab_to := tab_to default_block;
     target_url := target_url default_block;
     target_id := target_id default_block;
     message := message default_block;
     problem_id := ids;
     list_of_problems := ids |}.

(** A host for the examples: a course in which the current user has a
    score on the problems [a], [b] and [c]. *)
Definition demo_scores : list (string * Score) :=
  [("block-v1:edX+DemoX+T1+type@problem+block@a", mkScore 2 2);
   ("block-v1:edX+DemoX+T1+type@problem+block@b", mkScore 3 3);
   ("block-v1:edX+DemoX+T1+type@problem+block@c", mkScore 5 5)].

Definition demo_host : Host :=
  {| to_deprecated_string := "course-v1:edX+DemoX+T1";
     BLOCK_PREFIX := "block";
     BLOCK_TYPE_PREFIX := "type";
     from_string := fun loc => Some loc;
     scores_client_get := fun uk =>
       match uk with
       | Some loc => assoc loc demo_scores
       | None => None
       end |}.

(** The blocks of the examples. *)
Definition average_of_three : FlowCheckPointXblock :=
  block_on_problems "Average grade of a list of problems" (Some "a b c")
    "greater than or equal to" 50.

Definition average_of_two : FlowCheckPointXblock :=
  block_on_problems "Average grade of a list of problems" (Some "a b")
    "greater than or equal to" 50.

Definition unknown_condition : FlowCheckPointXblock :=
  block_on_problems "Always" (Some "a b") "equal to" 100.

Definition tab_error : ValidationMessage :=
  mkValidationMessage ERROR "Tab to redirect to must be greater than zero".

Definition ref_error : ValidationMessage :=
  mkValidationMessage ERROR
    "Score percentage field must be an integer number between 0 and 100".

(** ** The student view *)

(** [str] of an [int], as ['{}'.format] prints it. *)
Definition format_int (n : Z) : string :=
  NilZero.string_of_int (Z.to_int n).

(** The reading back of a decimal numeral. *)
Definition parse_int (s : string) : option Z :=
  option_map Z.of_int (NilZero.int_of_string s).

(** What the views set on a [Fragment]: its content, the scripts added
    and the initialisation call with its arguments. *)
Record Fragment : Type := mkFragment {
  content : string;
  javascript : list string;
  js_init_fn : option string;
  json_init_args : option json
}.

Definition new_Fragment (content : string) : Fragment :=
  mkFragment content [] None None.

Definition add_javascript (fragment : Fragment) (script : string) : Fragment :=
  mkFragment (content fragment) (javascript fragment ++ [script])%list
    (js_init_fn fragment) (json_init_args fragment).

Definition initialize_js (fragment : Fragment) (js_func : string)
    (json_args : option json) : Fragment :=
  mkFragment (content fragment) (javascript fragment)
    (Some js_func) json_args.

(** What the views read from their host: the packaged resources
    ([load]) and whether [xmodule_runtime] has the attribute
    [is_author_mode]. *)
Record ViewHost : Type := mkViewHost {
  load : string -> string;
  has_is_author_mode : bool
}.

(** An optional string field as a JSON value. *)
Definition json_of_field (field : option string) : json :=
  match field with
  | Some s => JString s
  | None => JNull
  end.

Definition student_view (vhost : ViewHost) (self : FlowCheckPointXblock)
    (context : option json) : Fragment :=
  let fragment := new_Fragment "<!-- This is the FlowCheckPointXblock -->" in
  let fragment := add_javascript fragment (load vhost "static/js/injection.js") in
  let in_studio_runtime := has_is_author_mode vhost in
  let index_base := 1 in
  let default_tab := "tab_" ++ format_int (tab_to self - index_base) in
  initialize_js fragment "FlowControlGoto"
    (Some (JObject
       [("display_name", JString (display_name self));
        ("default", JString default_tab);
        ("default_tab_id", JNumber (tab_to self));
        ("action", JString (action self));
        ("target_url", json_of_field (target_url self));
        ("target_id", json_of_field (target_id self));
        ("message", JString (message self));
        ("in_studio_runtime", JBool in_studio_runtime)])).

(** The argument of the initialisation call under a key. *)
Definition init_arg (fragment : Fragment) (key : string) : option json :=
  match json_init_args fragment with
  | Some (JObject args) => assoc key args
  | _ => None
  end.

(** ** Predicates used in the statements *)

(** [sep] occurs somewhere in [s]. *)
Fixpoint occurs (sep s : string) : bool :=
  (String.prefix sep s
   || match s with
      | EmptyString => false
      | String _ s' => occurs sep s'
      end)%bool.

(** Every character of [s] satisfies [p]. *)
Fixpoint all_chars (p : ascii -> bool) (s : string) : bool :=
  match s with
  | EmptyString => true
  | String c s' => (p c && all_chars p s')%bool
  end.

(** A word as [split] delivers it: not empty and free of whitespace. *)
Definition is_word (w : string) : bool :=
  (negb (String.eqb w "") && all_chars (fun c => negb (isspace c)) w)%bool.

(** A problem id as the fields ask for it: a word of ASCII
    characters. *)
Definition is_id (w : string) : bool :=
  (is_word w
   && all_chars (fun c => Nat.ltb (nat_of_ascii c) 128) w)%bool.

(** The current user has a fetched score on the problem. *)
Definition has_score (host : Host) (self : FlowCheckPointXblock)
    (problem : string) : bool :=
  match fetched_scores host self [problem] with
  | [] => false
  | _ :: _ => true
  end.

(** A block with the given condition, the given two id fields and the
    given comparison. *)
Definition block_on_fields (cond : string) (one many : option string)
    (op : string) (ref : Z) : FlowCheckPointXblock :=
  {| display_name := display_name default_block;
     action := action default_block;
     condition := cond;
     operator := op;
     ref_value := ref;
     tab_to := tab_to default_block;
     target_url := target_url default_block;
     target_id := target_id default_block;
     message := message default_block;
     problem_id := one;
     list_of_problems := many |}.

(** A block with the given tab. *)
Definition block_with_tab (tab : Z) : FlowCheckPointXblock :=
  {| display_name := display_name default_block;
     action := action default_block;
     condition := condition default_block;
     operator := operator default_block;
     ref_value := ref_value default_block;
     tab_to := tab;
     target_url := target_url default_block;
     target_id := target_id default_block;
     message := message default_block;
     problem_id := problem_id default_block;
     list_of_problems := list_of_problems default_block |}.

Definition demo_view_host : ViewHost :=
  {| load := fun path => "/* " ++ path ++ " */";
     has_is_author_mode := false |}.

(** A host whose course id is written the old way. *)
Definition old_style_host : Host :=
  {| to_deprecated_string := "edX/DemoX/T1";
     BLOCK_PREFIX := "block";
     BLOCK_TYPE_PREFIX := "type";
     from_string := fun loc => Some loc;
     scores_client_get := fun _ => None |}.

(** The id field that [get_condition_status] reads for the block's
    condition. *)
Definition evaluated_field (self : FlowCheckPointXblock)
    (field : option string) : Prop :=
  (condition self = "Grade of a problem" /\ problem_id self = field) \/
  (condition self = "Average grade of a list of problems" /\
   list_of_problems self = field).

(** A list of two problems separated by a no-break space. *)
Definition no_break_separated : FlowCheckPointXblock :=
  block_on_fields "Average grade of a list of problems" None
    (Some ("a" ++ String "160"%char "b"))
    "greater than or equal to" 50.

(** A list of problems written with a comma. *)
Definition comma_separated : FlowCheckPointXblock :=
  block_on_fields "Average grade of a list of problems" None (Some "a,b")
    "greater than or equal to" 50.

(** Further blocks of the examples. *)
Definition blank_problem : FlowCheckPointXblock :=
  block_on_fields "Grade of a problem" (Some "  ") None "equal to" 0.

Definition grade_of_two : FlowCheckPointXblock :=
  block_on_fields "Grade of a problem" (Some "a b") None
    "greater than or equal to" 50.

Definition less_than_hundred : FlowCheckPointXblock :=
  block_with_operator "less than" 100.

(** An id list on two lines: [" a1 "], a no-break space, ["b2"], a
    line break, ["c3 "]. *)
Definition two_lines : string :=
  " a1 " ++ String "160"%char ("b2" ++ String "010"%char "c3 ").

(** ** Properties of [compare_scores] *)

Lemma truthy_nonzero (n : Z) : n <> 0 -> truthy (VNum n) = true.
Proof.
  intros Hn. simpl. destruct (Z.eqb_spec n 0); [contradiction | reflexivity].
Qed.

Lemma percentage_nonzero (correct total : Z) :
  total <> 0 ->
  percentage (VNum correct) (VNum total) = inr (correct / total * 100).
Proof.
  intros Hn. unfold percentage, py_div.
  destruct (Z.eqb_spec total 0); [contradiction | reflexivity].
Qed.

(** Enters the guarded part of [compare_scores] for a non-zero total. *)
Ltac enter_comparison Hnz :=
  unfold compare_scores;
  rewrite (truthy_nonzero _ Hnz), (percentage_nonzero _ _ Hnz).

(** C1: for a non-zero total and each of the six operator names,
    [compare_scores] returns the corresponding relation (=, <>, <=, <,
    >=, >) applied to the computed percentage and [ref_value]. *)
Theorem compare_scores_applies_relation
    (self : FlowCheckPointXblock) (correct total : Z) :
  total <> 0 ->
  In (operator self) (_operators_generator self) ->
  exists rel p,
    relation_of (operator self) = Some rel /\
    percentage (VNum correct) (VNum total) = inr p /\
    compare_scores self (VNum correct) (VNum total)
      = inr (rel p (ref_value self)).
Proof.
  intros Hnz Hop. enter_comparison Hnz.
  simpl in Hop.
  repeat (destruct Hop as [Hop | Hop];
          [rewrite <- Hop; simpl; do 2 eexists; repeat split; reflexivity |]).
  contradiction.
Qed.

Lemma compare_scores_applies_relation_witness :
  2 <> 0 /\
  In (operator default_block) (_operators_generator default_block) /\
  exists rel p,
    relation_of (operator default_block) = Some rel /\
    percentage (VNum 1) (VNum 2) = inr p /\
    compare_scores default_block (VNum 1) (VNum 2)
      = inr (rel p (ref_value default_block)).
Proof.
  split; [lia |]. split; [simpl; auto |].
  apply (compare_scores_applies_relation default_block 1 2);
    [lia | simpl; auto].
Defined.

(** No numeric arguments make the division of [compare_scores] fail. *)
Lemma compare_scores_returns (self : FlowCheckPointXblock) (correct total : Z) :
  exists b, compare_scores self (VNum correct) (VNum total) = inr b.
Proof.
  destruct (Z.eq_dec total 0) as [-> | Hnz].
  - exists false. reflexivity.
  - enter_comparison Hnz. simpl. eexists. reflexivity.
Qed.

(** C8: with a total of zero [compare_scores] returns [False] whatever
    the operator and [ref_value] are, and the division is not executed:
    no call on numbers ends in [ZeroDivisionError]. *)
Theorem compare_scores_total_zero
    (self : FlowCheckPointXblock) (correct : Z) :
  compare_scores self (VNum correct) (VNum 0) = inr false /\
  forall total : Z,
    compare_scores self (VNum correct) (VNum total) <> inl ZeroDivisionError.
Proof.
  split; [reflexivity |].
  intros total H.
  destruct (compare_scores_returns self correct total) as [b Hb].
  rewrite Hb in H. discriminate.
Qed.

(** An operator name outside the six options leaves every test of
    [compare_scores] false. *)
Lemma unknown_operator_tests (self : FlowCheckPointXblock) :
  ~ In (operator self) (_operators_generator self) ->
  String.eqb (operator self) "equal to" = false /\
  String.eqb (operator self) "not equal to" = false /\
  String.eqb (operator self) "less than or equal to" = false /\
  String.eqb (operator self) "greater than or equal to" = false /\
  String.eqb (operator self) "less than" = false /\
  String.eqb (operator self) "greater than" = false.
Proof.
  intros Hop.
  repeat split;
    (apply String.eqb_neq; intros Heq; apply Hop; rewrite Heq; simpl; tauto).
Qed.

(** C9: for an operator string that is none of the six options,
    [compare_scores] returns [False] for every [correct], [total] and
    [ref_value]; no error is raised. *)
Theorem compare_scores_unknown_operator
    (self : FlowCheckPointXblock) (correct total : Z) :
  ~ In (operator self) (_operators_generator self) ->
  compare_scores self (VNum correct) (VNum total) = inr false.
Proof.
  intros Hop.
  destruct (unknown_operator_tests self Hop)
    as (E1 & E2 & E3 & E4 & E5 & E6).
  destruct (Z.eq_dec total 0) as [-> | Hnz]; [reflexivity |].
  enter_comparison Hnz.
  simpl. rewrite E1, E2, E3, E4, E5, E6. reflexivity.
Qed.

Lemma compare_scores_unknown_operator_witness :
  ~ In (operator (block_with_operator "at least" 50))
       (_operators_generator (block_with_operator "at least" 50)) /\
  compare_scores (block_with_operator "at least" 50) (VNum 3) (VNum 4)
    = inr false.
Proof.
  assert (H : ~ In (operator (block_with_operator "at least" 50))
                (_operators_generator (block_with_operator "at least" 50))).
  { simpl. intros H. repeat (destruct H as [H | H]; [discriminate H |]).
    exact H. }
  split; [exact H |].
  exact (compare_scores_unknown_operator
           (block_with_operator "at least" 50) 3 4 H).
Defined.

(** ** Validation and the offered actions *)

(** C5: [validate_field_data] appends error messages only, one for
    [tab_to <= 0], one for a [ref_value] outside 0..100, and none when
    [tab_to > 0] and [0 <= ref_value <= 100]. *)
Theorem validate_field_data_errors
    (self : FlowCheckPointXblock) (validation : Validation)
    (data : FlowCheckPointXblock) :
  exists added : list ValidationMessage,
    validate_field_data self validation data = (validation ++ added)%list /\
    Forall (fun m => type m = ERROR) added /\
    NoDup added /\
    (forall m, In m added -> m = tab_error \/ m = ref_error) /\
    (In tab_error added <-> tab_to data <= 0) /\
    (In ref_error added <-> ref_value data < 0 \/ ref_value data > 100) /\
    (added = [] <-> tab_to data > 0 /\ 0 <= ref_value data <= 100).
Proof.
  exists ((if tab_to data <=? 0 then [tab_error] else [])
          ++ (if ((ref_value data <? 0) || (ref_value data >? 100))%bool
              then [ref_error] else []))%list.
  assert (Hne : tab_error <> ref_error) by discriminate.
  unfold validate_field_data, add. fold tab_error. fold ref_error.
  destruct (Z.leb_spec (tab_to data) 0) as [Ht | Ht];
    destruct (Z.ltb_spec (ref_value data) 0) as [Hl | Hl];
    destruct (Z.gtb_spec (ref_value data) 100) as [Hg | Hg]; simpl.
  all: split; [rewrite <- ?app_assoc, ?app_nil_r; reflexivity |].
  all: split; [repeat constructor |].
  all: split; [repeat constructor; simpl; intuition congruence |].
  all: split; [simpl; intuition auto |].
  all: split; [simpl; split; intros H; try lia; intuition congruence |].
  all: split; [simpl; split; intros H; try lia; intuition congruence |].
  all: split; intros H; try discriminate H; try reflexivity; lia.
Qed.

(** C7: the actions offered for the [action] field are exactly the four
    strings returned by [_actions_generator], without repetition, and
    the field's default is the first of them. *)
Theorem actions_generator_exact (block : FlowCheckPointXblock) (a : string) :
  (In a (_actions_generator block) <->
     a = "Display a message" \/
     a = "Redirect using jump_to_id" \/
     a = "Redirect to a given unit in the same subsection" \/
     a = "Redirect to a given URL") /\
  List.length (_actions_generator block) = 4%nat /\
  NoDup (_actions_generator block) /\
  hd_error (_actions_generator block) = Some (action default_block).
Proof.
  split; [| split; [reflexivity | split; [| reflexivity]]].
  - simpl. intuition auto.
  - repeat constructor; simpl; intuition discriminate.
Qed.

(** ** Aggregation over the fetched scores *)

(** With no score the variables [correct] and [total] keep their initial
    value. *)
Lemma aggregate_nil : aggregate [] = inr (VNum 0, VNum 0).
Proof. reflexivity. Qed.

(** One score is taken as it is. *)
Lemma aggregate_one (s : Score) :
  aggregate [s] = inr (VNum (correct s), VNum (total s)).
Proof. reflexivity. Qed.

(** Two scores are added field by field. *)
Lemma aggregate_two (s1 s2 : Score) :
  aggregate [s1; s2]
    = inr (VNum (sum_correct [s1; s2]), VNum (sum_total [s1; s2])).
Proof.
  unfold sum_correct, sum_total. simpl. rewrite !Z.add_0_r. reflexivity.
Qed.

(** From the second step on, the accumulator of [reduce] is a number,
    and the function reads an attribute of it. *)
Lemma reduce_from_number (n : Z) (y : value) (l : list value) :
  reduce_from add_correct (VNum n) (y :: l) = inl AttributeError.
Proof. reflexivity. Qed.

Lemma aggregate_three_or_more (scores : list Score) :
  (3 <= List.length scores)%nat ->
  aggregate scores = inl AttributeError.
Proof.
  destruct scores as [| s0 [| s1 [| s2 rest]]]; simpl; try lia.
  intros _. reflexivity.
Qed.

(** Up to two fetched scores, [condition_on_problem_list] returns. *)
Lemma condition_on_problem_list_returns
    (host : Host) (self : FlowCheckPointXblock) (problems : list string) :
  (List.length (fetched_scores host self problems) <= 2)%nat ->
  exists b, condition_on_problem_list host self problems = inr b.
Proof.
  unfold condition_on_problem_list.
  destruct (fetched_scores host self problems) as [| s0 [| s1 [| s2 rest]]];
    simpl List.length; intros Hlen; try lia.
  - rewrite aggregate_nil. apply compare_scores_returns.
  - rewrite aggregate_one. apply compare_scores_returns.
  - rewrite aggregate_two. apply compare_scores_returns.
Qed.

(** Exactly two fetched scores are compared on their sums. *)
Lemma condition_on_two_scores
    (host : Host) (self : FlowCheckPointXblock) (problems : list string)
    (s1 s2 : Score) :
  fetched_scores host self problems = [s1; s2] ->
  condition_on_problem_list host self problems
    = compare_scores self (VNum (sum_correct [s1; s2]))
        (VNum (sum_total [s1; s2])).
Proof.
  intros H. unfold condition_on_problem_list.
  rewrite H, aggregate_two. reflexivity.
Qed.

(** C2 (the code at the failing input): on a list of three problems with
    the scores 2/2, 3/3 and 5/5 the call raises [AttributeError], while
    the comparison on the sums 10 and 10 holds. *)
Theorem condition_on_three_problems_raises :
  fetched_scores demo_host average_of_three ["a"; "b"; "c"]
    = [mkScore 2 2; mkScore 3 3; mkScore 5 5] /\
  compare_scores average_of_three
    (VNum (sum_correct [mkScore 2 2; mkScore 3 3; mkScore 5 5]))
    (VNum (sum_total [mkScore 2 2; mkScore 3 3; mkScore 5 5]))
    = inr true /\
  condition_on_problem_list demo_host average_of_three ["a"; "b"; "c"]
    = inl AttributeError /\
  get_condition_status demo_host average_of_three = inl AttributeError.
Proof. repeat split; reflexivity. Qed.

(** C3 (the code on the failing inputs): whenever three or more scores
    are fetched, [condition_on_problem_list] ends in [AttributeError]. *)
Theorem condition_on_problem_list_raises
    (host : Host) (self : FlowCheckPointXblock) (problems : list string) :
  (3 <= List.length (fetched_scores host self problems))%nat ->
  condition_on_problem_list host self problems = inl AttributeError.
Proof.
  intros Hlen. unfold condition_on_problem_list.
  rewrite (aggregate_three_or_more _ Hlen). reflexivity.
Qed.

Lemma condition_on_problem_list_raises_witness :
  (3 <= List.length (fetched_scores demo_host default_block ["c"; "b"; "a"; "c"]))%nat /\
  condition_on_problem_list demo_host default_block ["c"; "b"; "a"; "c"]
    = inl AttributeError.
Proof.
  split; [vm_compute; lia |].
  apply (condition_on_problem_list_raises demo_host default_block
           ["c"; "b"; "a"; "c"]).
  vm_compute. lia.
Defined.

(** ** The condition status and its handler *)

(** C10: when the condition is neither of the two offered names, the
    problem list stays empty, [correct] and [total] stay 0, and the
    status is [False]. *)
Theorem get_condition_status_unknown_condition
    (host : Host) (self : FlowCheckPointXblock) :
  condition self <> "Grade of a problem" ->
  condition self <> "Average grade of a list of problems" ->
  get_condition_status host self = condition_on_problem_list host self [] /\
  aggregate (fetched_scores host self []) = inr (VNum 0, VNum 0) /\
  get_condition_status host self = inr false.
Proof.
  intros H1 H2. unfold get_condition_status.
  apply String.eqb_neq in H1, H2. rewrite H1, H2.
  repeat split; reflexivity.
Qed.

Lemma get_condition_status_unknown_condition_witness :
  condition unknown_condition <> "Grade of a problem" /\
  condition unknown_condition <> "Average grade of a list of problems" /\
  get_condition_status demo_host unknown_condition = inr false.
Proof.
  assert (H1 : condition unknown_condition <> "Grade of a problem")
    by discriminate.
  assert (H2 : condition unknown_condition
               <> "Average grade of a list of problems") by discriminate.
  split; [exact H1 |]. split; [exact H2 |].
  exact (proj2 (proj2
    (get_condition_status_unknown_condition demo_host unknown_condition
       H1 H2))).
Defined.

(** C6 (counterexample): on the block with the default fields the
    handler raises [AttributeError], for the payload [null] as for any
    other: there is no response, with ['success'] true or not. *)
Lemma condition_status_handler_no_response :
  condition_status_handler demo_host default_block JNull ""
    = inl AttributeError /\
  ~ (exists status : bool,
       condition_status_handler demo_host default_block JNull ""
         = inr (JObject [("success", JBool true);
                         ("status", JBool status)])).
Proof.
  split; [reflexivity |]. intros [status H]. discriminate H.
Qed.

(** C6 (as amended): whatever the decoded payload and the suffix, when
    [get_condition_status] returns a value for the block, the handler
    answers with ['success'] true and that value as ['status']. *)
Theorem condition_status_handler_response
    (host : Host) (self : FlowCheckPointXblock)
    (data : json) (suffix : string) (status : bool) :
  get_condition_status host self = inr status ->
  condition_status_handler host self data suffix
    = inr (JObject [("success", JBool true); ("status", JBool status)]).
Proof.
  intros H. unfold condition_status_handler. rewrite H. reflexivity.
Qed.

Lemma condition_status_handler_response_witness :
  get_condition_status demo_host average_of_two = inr true /\
  condition_status_handler demo_host average_of_two
    (JObject [("x", JNumber 1)]) "go"
    = inr (JObject [("success", JBool true); ("status", JBool true)]).
Proof.
  assert (H : get_condition_status demo_host average_of_two = inr true)
    by reflexivity.
  split; [exact H |].
  exact (condition_status_handler_response demo_host average_of_two
           (JObject [("x", JNumber 1)]) "go" true H).
Defined.

(** ** Strings: supporting facts *)

Lemma append_assoc (a b c : string) : ((a ++ b) ++ c = a ++ (b ++ c))%string.
Proof. induction a as [| x a IH]; simpl; [reflexivity | rewrite IH; reflexivity]. Qed.

Lemma append_empty_r (a : string) : (a ++ "" = a)%string.
Proof. induction a as [| x a IH]; simpl; [reflexivity | rewrite IH; reflexivity]. Qed.

Lemma prefix_empty (s : string) : String.prefix "" s = true.
Proof. destruct s; reflexivity. Qed.

Lemma substring_all (s : string) : String.substring 0 (String.length s) s = s.
Proof. induction s as [| c s IH]; simpl; [reflexivity | rewrite IH; reflexivity]. Qed.

(** A string in which [sep] does not occur has no last occurrence. *)
Lemma after_last_none (sep s : string) :
  occurs sep s = false -> after_last sep s = None.
Proof.
  induction s as [| c s IH]; [reflexivity |].
  intros H. cbn [occurs] in H. apply Bool.orb_false_iff in H as [Hp Ho].
  cbn [after_last]. rewrite (IH Ho), Hp. reflexivity.
Qed.

(** An occurrence further right is not lost by a longer left part. *)
Lemma after_last_app (sep a s r : string) :
  after_last sep s = Some r -> after_last sep (a ++ s) = Some r.
Proof.
  intros H. induction a as [| c a IH]; [exact H |].
  simpl. rewrite IH. reflexivity.
Qed.

(** ["course"] cannot overlap itself: right after an occurrence, what
    follows is the last piece when it holds no further occurrence. *)
Lemma after_last_course (rest : string) :
  occurs "course" rest = false ->
  after_last "course" ("course" ++ rest) = Some rest.
Proof.
  intros H. apply after_last_none in H.
  cbn [append after_last]. rewrite H.
  cbn. rewrite prefix_empty, Nat.sub_0_r, substring_all. reflexivity.
Qed.

Lemma split_last_course (before rest : string) :
  occurs "course" rest = false ->
  split_last "course" (before ++ "course" ++ rest) = rest.
Proof.
  intros H. unfold split_last.
  rewrite (after_last_app _ before _ rest (after_last_course rest H)).
  reflexivity.
Qed.

(** ** Location strings *)

(** X1: for a course id that ends in ["course"] followed by [rest],
    [rest] holding no further ["course"], the location of a problem is
    [BLOCK_PREFIX rest + BLOCK_TYPE_PREFIX @problem+ BLOCK_PREFIX @
    locator]: everything up to and including the last ["course"] is
    dropped. *)
Theorem get_location_string_after_course
    (host : Host) (self : FlowCheckPointXblock)
    (locator before rest : string) :
  to_deprecated_string host = (before ++ "course" ++ rest)%string ->
  occurs "course" rest = false ->
  get_location_string host self locator
    = (BLOCK_PREFIX host ++ rest ++ "+" ++ BLOCK_TYPE_PREFIX host
       ++ "@problem+" ++ BLOCK_PREFIX host ++ "@" ++ locator)%string.
Proof.
  intros Hid Hrest. unfold get_location_string.
  rewrite Hid, (split_last_course before rest Hrest). reflexivity.
Qed.

Lemma get_location_string_after_course_witness :
  to_deprecated_string demo_host = ("" ++ "course" ++ "-v1:edX+DemoX+T1")%string /\
  occurs "course" "-v1:edX+DemoX+T1" = false /\
  get_location_string demo_host default_block "618c5933"
    = "block-v1:edX+DemoX+T1+type@problem+block@618c5933".
Proof.
  split; [reflexivity |]. split; [reflexivity |].
  apply (get_location_string_after_course demo_host default_block
           "618c5933" "" "-v1:edX+DemoX+T1"); reflexivity.
Defined.

(** X2: a course id in which ["course"] does not occur is used whole. *)
Theorem get_location_string_without_course
    (host : Host) (self : FlowCheckPointXblock) (locator : string) :
  occurs "course" (to_deprecated_string host) = false ->
  get_location_string host self locator
    = (BLOCK_PREFIX host ++ to_deprecated_string host ++ "+"
       ++ BLOCK_TYPE_PREFIX host ++ "@problem+" ++ BLOCK_PREFIX host
       ++ "@" ++ locator)%string.
Proof.
  intros H. unfold get_location_string, split_last.
  rewrite (after_last_none _ _ H). reflexivity.
Qed.

Lemma get_location_string_without_course_witness :
  occurs "course" (to_deprecated_string old_style_host) = false /\
  get_location_string old_style_host default_block "618c5933"
    = "blockedX/DemoX/T1+type@problem+block@618c5933".
Proof.
  split; [reflexivity |].
  apply (get_location_string_without_course old_style_host default_block
           "618c5933"); reflexivity.
Defined.

Lemma append_inj_l (a b c : string) : (a ++ b = a ++ c)%string -> b = c.
Proof.
  induction a as [| x a IH]; simpl; intros H; [exact H |].
  injection H as H. exact (IH H).
Qed.

(** X3: two problem ids have the same location string only when they
    are the same id, and the location does not depend on the block's
    fields. *)
Theorem get_location_string_injective
    (host : Host) (self self' : FlowCheckPointXblock) (p q : string) :
  (get_location_string host self p = get_location_string host self' q
   <-> p = q).
Proof.
  unfold get_location_string. split.
  - intros H. repeat (apply append_inj_l in H). exact H.
  - intros ->. reflexivity.
Qed.

(** ** Splitting the id fields *)

Lemma all_chars_app (p : ascii -> bool) (a b : string) :
  all_chars p (a ++ b) = (all_chars p a && all_chars p b)%bool.
Proof.
  induction a as [| c a IH]; simpl; [reflexivity |].
  rewrite IH, Bool.andb_assoc. reflexivity.
Qed.

Lemma is_word_single (c : ascii) :
  isspace c = false -> is_word (String c "") = true.
Proof. intros H. unfold is_word. simpl. rewrite H. reflexivity. Qed.

Lemma is_word_snoc (w : string) (c : ascii) :
  is_word w = true -> isspace c = false ->
  is_word (w ++ String c "") = true.
Proof.
  unfold is_word. intros Hw Hc.
  apply Bool.andb_true_iff in Hw as [Hne Hall].
  rewrite all_chars_app, Hall. simpl. rewrite Hc.
  destruct w; [discriminate Hne | reflexivity].
Qed.

(** The words [split_from] delivers are words, when the one under
    construction is. *)
Lemma split_from_words (s : string) :
  forall word : option string,
    match word with Some w => is_word w = true | None => True end ->
    Forall (fun w => is_word w = true) (split_from word s).
Proof.
  induction s as [| c s IH]; intros word Hword; simpl.
  - destruct word; [constructor; [exact Hword | constructor] | constructor].
  - destruct (isspace c) eqn:Hc.
    + destruct word.
      * constructor; [exact Hword | apply IH; exact I].
      * apply IH; exact I.
    + destruct word.
      * apply IH. apply is_word_snoc; assumption.
      * apply IH. apply is_word_single; assumption.
Qed.

(** Without whitespace nothing is cut. *)
Lemma split_from_unbroken (s : string) :
  all_chars (fun c => negb (isspace c)) s = true ->
  forall w : string, split_from (Some w) s = [(w ++ s)%string].
Proof.
  induction s as [| c s IH]; simpl; intros H w.
  - rewrite append_empty_r. reflexivity.
  - apply Bool.andb_true_iff in H as [Hc Hs].
    apply Bool.negb_true_iff in Hc. rewrite Hc, (IH Hs), append_assoc.
    reflexivity.
Qed.

Lemma split_word (s : string) : is_word s = true -> split s = [s].
Proof.
  unfold is_word, split. intros H.
  apply Bool.andb_true_iff in H as [Hne Hall].
  destruct s as [| c s]; [discriminate Hne |].
  simpl in Hall |- *. apply Bool.andb_true_iff in Hall as [Hc Hs].
  apply Bool.negb_true_iff in Hc. rewrite Hc.
  apply (split_from_unbroken s Hs).
Qed.

Lemma split_blank (s : string) : all_chars isspace s = true -> split s = [].
Proof.
  unfold split. induction s as [| c s IH]; simpl; [reflexivity |].
  intros H. apply Bool.andb_true_iff in H as [Hc Hs].
  rewrite Hc. exact (IH Hs).
Qed.

(** A whitespace character ends the word before it and starts afresh. *)
Lemma split_from_app (a b : string) (c : ascii) :
  isspace c = true ->
  forall word : option string,
    split_from word (a ++ String c b)
      = (split_from word a ++ split_from None b)%list.
Proof.
  intros Hc. induction a as [| x a IH]; intros word; simpl.
  - rewrite Hc. destruct word; reflexivity.
  - destruct (isspace x); destruct word; rewrite IH; reflexivity.
Qed.

(** ** The condition status *)

Lemma get_condition_status_reads
    (host : Host) (self : FlowCheckPointXblock) (field : option string) :
  evaluated_field self field ->
  get_condition_status host self
    = (problems <- field_split field ;;
       condition_on_problem_list host self problems).
Proof.
  unfold evaluated_field, get_condition_status.
  intros [[Hc Hf] | [Hc Hf]]; rewrite Hc, <- Hf; simpl;
    destruct (field_split _); reflexivity.
Qed.

(** X4: every problem id that the evaluation of the condition looks up
    is a non-empty text without any whitespace character, the no-break
    space and the other non-ASCII ones included. *)
Theorem field_split_words (field : option string) (problems : list string) :
  field_split field = inr problems ->
  Forall (fun w => is_word w = true) problems.
Proof.
  destruct field as [s |]; simpl; intros H; [| discriminate H].
  injection H as <-. apply split_from_words. exact I.
Qed.

Lemma field_split_words_witness :
  field_split (Some two_lines) = inr ["a1"; "b2"; "c3"] /\
  Forall (fun w => is_word w = true) ["a1"; "b2"; "c3"].
Proof.
  split; [reflexivity |].
  apply (field_split_words (Some two_lines)). reflexivity.
Defined.

Lemma is_id_word (w : string) : is_id w = true -> is_word w = true.
Proof.
  unfold is_id. intros H. apply Bool.andb_true_iff in H as [H _]. exact H.
Qed.

(** X5: an id field that is one run of ASCII characters without
    whitespace is one problem id, commas included: the condition is
    evaluated on that single id. *)
Theorem get_condition_status_single_word
    (host : Host) (self : FlowCheckPointXblock) (s : string) :
  evaluated_field self (Some s) ->
  is_id s = true ->
  get_condition_status host self = condition_on_problem_list host self [s].
Proof.
  intros Hf Hw. rewrite (get_condition_status_reads host self _ Hf).
  simpl. rewrite (split_word s (is_id_word s Hw)). reflexivity.
Qed.

Lemma get_condition_status_single_word_witness :
  evaluated_field comma_separated (Some "a,b") /\
  is_id "a,b" = true /\
  get_condition_status demo_host comma_separated
    = condition_on_problem_list demo_host comma_separated ["a,b"].
Proof.
  assert (H : evaluated_field comma_separated (Some "a,b"))
    by (right; split; reflexivity).
  split; [exact H |]. split; [reflexivity |].
  exact (get_condition_status_single_word demo_host comma_separated "a,b"
           H eq_refl).
Defined.

(** X6: two ids of ASCII characters separated by one whitespace
    character (a blank, a tab, a line break, a no-break space) are
    looked up as two problems, in their order. *)
Theorem get_condition_status_two_words
    (host : Host) (self : FlowCheckPointXblock) (p q : string) (c : ascii) :
  evaluated_field self (Some (p ++ String c q)%string) ->
  isspace c = true -> is_id p = true -> is_id q = true ->
  get_condition_status host self
    = condition_on_problem_list host self [p; q].
Proof.
  intros Hf Hc Hp Hq. rewrite (get_condition_status_reads host self _ Hf).
  simpl. unfold split. rewrite (split_from_app p q c Hc None).
  fold (split p). fold (split q).
  rewrite (split_word p (is_id_word p Hp)), (split_word q (is_id_word q Hq)).
  reflexivity.
Qed.

Lemma get_condition_status_two_words_witness :
  evaluated_field no_break_separated
    (Some ("a" ++ String "160"%char "b")%string) /\
  isspace "160"%char = true /\ is_id "a" = true /\ is_id "b" = true /\
  get_condition_status demo_host no_break_separated
    = condition_on_problem_list demo_host no_break_separated ["a"; "b"].
Proof.
  assert (H : evaluated_field no_break_separated
                (Some ("a" ++ String "160"%char "b")%string))
    by (right; split; reflexivity).
  split; [exact H |]. repeat (split; [reflexivity |]).
  exact (get_condition_status_two_words demo_host no_break_separated
           "a" "b" "160"%char H eq_refl eq_refl eq_refl).
Defined.

(** X7: an id field that is empty or all whitespace names no problem,
    and the status is [False] whatever the comparison is. *)
Theorem get_condition_status_blank_field
    (host : Host) (self : FlowCheckPointXblock) (s : string) :
  evaluated_field self (Some s) ->
  all_chars isspace s = true ->
  get_condition_status host self = inr false.
Proof.
  intros Hf Hs. rewrite (get_condition_status_reads host self _ Hf).
  simpl. rewrite (split_blank s Hs). reflexivity.
Qed.

Lemma get_condition_status_blank_field_witness :
  evaluated_field blank_problem (Some "  ") /\
  all_chars isspace "  " = true /\
  get_condition_status demo_host blank_problem = inr false.
Proof.
  assert (H : evaluated_field blank_problem (Some "  "))
    by (left; split; reflexivity).
  split; [exact H |]. split; [reflexivity |].
  exact (get_condition_status_blank_field demo_host blank_problem "  "
           H eq_refl).
Defined.

(** X8: when the id field of the block's condition holds [None],
    [get_condition_status] raises [AttributeError], and the handler
    raises it too instead of answering. *)
Theorem get_condition_status_unset_field
    (host : Host) (self : FlowCheckPointXblock)
    (data : json) (suffix : string) :
  evaluated_field self None ->
  get_condition_status host self = inl AttributeError /\
  condition_status_handler host self data suffix = inl AttributeError.
Proof.
  intros Hf. unfold condition_status_handler.
  rewrite (get_condition_status_reads host self _ Hf).
  split; reflexivity.
Qed.

Lemma get_condition_status_unset_field_witness :
  evaluated_field default_block None /\
  get_condition_status demo_host default_block = inl AttributeError /\
  condition_status_handler demo_host default_block JNull ""
    = inl AttributeError.
Proof.
  assert (H : evaluated_field default_block None)
    by (left; split; reflexivity).
  split; [exact H |].
  exact (get_condition_status_unset_field demo_host default_block JNull ""
           H).
Defined.

Lemma compare_scores_same_comparison
    (self self' : FlowCheckPointXblock) (correct total : value) :
  operator self = operator self' -> ref_value self = ref_value self' ->
  compare_scores self correct total = compare_scores self' correct total.
Proof.
  intros Ho Hr. unfold compare_scores. rewrite Ho, Hr. reflexivity.
Qed.

(** X9: the two conditions are evaluated alike: two blocks with the
    same comparison whose conditions read the same id string have the
    same status, so 'Grade of a problem' on several ids is their
    average. *)
Theorem get_condition_status_same_field
    (host : Host) (self self' : FlowCheckPointXblock)
    (field : option string) :
  evaluated_field self field -> evaluated_field self' field ->
  operator self = operator self' -> ref_value self = ref_value self' ->
  get_condition_status host self = get_condition_status host self'.
Proof.
  intros Hf Hf' Ho Hr.
  rewrite (get_condition_status_reads host self _ Hf),
    (get_condition_status_reads host self' _ Hf').
  destruct (field_split field) as [e | problems]; [reflexivity |].
  simpl. unfold condition_on_problem_list.
  change (fetched_scores host self' problems)
    with (fetched_scores host self problems).
  destruct (aggregate (fetched_scores host self problems)) as [e | ct];
    [reflexivity |].
  simpl. apply compare_scores_same_comparison; assumption.
Qed.

Lemma get_condition_status_same_field_witness :
  evaluated_field grade_of_two (Some "a b") /\
  evaluated_field average_of_two (Some "a b") /\
  operator grade_of_two = operator average_of_two /\
  ref_value grade_of_two = ref_value average_of_two /\
  get_condition_status demo_host grade_of_two
    = get_condition_status demo_host average_of_two.
Proof.
  assert (H : evaluated_field grade_of_two (Some "a b"))
    by (left; split; reflexivity).
  assert (H' : evaluated_field average_of_two (Some "a b"))
    by (right; split; reflexivity).
  split; [exact H |]. split; [exact H' |].
  split; [reflexivity |]. split; [reflexivity |].
  exact (get_condition_status_same_field demo_host grade_of_two
           average_of_two (Some "a b") H H' eq_refl eq_refl).
Defined.

(** ** Scores that are missing, repeated or swapped *)

Lemma fetched_scores_cons
    (host : Host) (self : FlowCheckPointXblock)
    (p : string) (problems : list string) :
  fetched_scores host self (p :: problems)
    = (fetched_scores host self [p] ++ fetched_scores host self problems)%list.
Proof.
  unfold fetched_scores. simpl.
  destruct (scores_client_get host _); reflexivity.
Qed.

Lemma fetched_scores_single
    (host : Host) (self : FlowCheckPointXblock) (p : string) :
  fetched_scores host self [p] = []
  \/ exists s, fetched_scores host self [p] = [s].
Proof.
  unfold fetched_scores. simpl.
  destruct (scores_client_get host _) as [s |]; [right; exists s | left];
    reflexivity.
Qed.

Lemma fetched_scores_unscored
    (host : Host) (self : FlowCheckPointXblock) (problems : list string) :
  fetched_scores host self (filter (has_score host self) problems)
    = fetched_scores host self problems.
Proof.
  induction problems as [| p problems IH]; [reflexivity |].
  cbn [filter]. rewrite (fetched_scores_cons host self p problems).
  destruct (has_score host self p) eqn:Hs.
  - rewrite fetched_scores_cons, IH. reflexivity.
  - unfold has_score in Hs.
    destruct (fetched_scores host self [p]); [exact IH | discriminate Hs].
Qed.

(** X10: problems on which the user has no fetched score do not count:
    dropping them from the list leaves the result as it is. *)
Theorem condition_on_problem_list_unscored
    (host : Host) (self : FlowCheckPointXblock) (problems : list string) :
  condition_on_problem_list host self
      (filter (has_score host self) problems)
    = condition_on_problem_list host self problems.
Proof.
  unfold condition_on_problem_list.
  rewrite fetched_scores_unscored. reflexivity.
Qed.

(** X11: when the user has a score on none of the problems, the result
    is [False] for every operator and every [ref_value], "equal to 0"
    and "less than" included. *)
Theorem condition_on_problem_list_no_score
    (host : Host) (self : FlowCheckPointXblock) (problems : list string) :
  (forall p, In p problems -> has_score host self p = false) ->
  condition_on_problem_list host self problems = inr false.
Proof.
  intros H. unfold condition_on_problem_list.
  rewrite <- fetched_scores_unscored.
  replace (filter (has_score host self) problems) with (@nil string).
  - reflexivity.
  - symmetry. induction problems as [| p problems IH]; [reflexivity |].
    cbn [filter]. rewrite (H p (or_introl eq_refl)).
    apply IH. intros q Hq. apply H. right. exact Hq.
Qed.

Lemma condition_on_problem_list_no_score_witness :
  (forall p, In p ["x"; "y"] -> has_score demo_host less_than_hundred p = false) /\
  condition_on_problem_list demo_host less_than_hundred ["x"; "y"]
    = inr false.
Proof.
  assert (H : forall p, In p ["x"; "y"] ->
                has_score demo_host less_than_hundred p = false).
  { intros p [<- | [<- | []]]; reflexivity. }
  split; [exact H |].
  exact (condition_on_problem_list_no_score demo_host less_than_hundred
           ["x"; "y"] H).
Defined.

(** X12: [condition_on_problem_list] returns a result exactly when at
    most two scores are fetched; otherwise it raises
    [AttributeError]. *)
Theorem condition_on_problem_list_returns_iff
    (host : Host) (self : FlowCheckPointXblock) (problems : list string) :
  ((exists b, condition_on_problem_list host self problems = inr b)
   <-> (List.length (fetched_scores host self problems) <= 2)%nat) /\
  (condition_on_problem_list host self problems = inl AttributeError
   <-> (2 < List.length (fetched_scores host self problems))%nat).
Proof.
  destruct (Nat.le_gt_cases
              (List.length (fetched_scores host self problems)) 2)
    as [Hle | Hgt].
  - destruct (condition_on_problem_list_returns host self problems Hle)
      as [b Hb].
    split.
    + split; [intros _; exact Hle | intros _; exists b; exact Hb].
    + split; [intros H; rewrite Hb in H; discriminate H | intros H; lia].
  - assert (He : condition_on_problem_list host self problems
                 = inl AttributeError).
    { unfold condition_on_problem_list.
      rewrite (aggregate_three_or_more _ Hgt). reflexivity. }
    split.
    + split; [intros [b Hb]; rewrite He in Hb; discriminate Hb
             | intros H; lia].
    + split; [intros _; exact Hgt | intros _; exact He].
Qed.

(** X13: when the user has a score on each of two problems, the
    result is the comparison on the sum of the two [correct] values and
    the sum of the two [total] values. *)
Theorem condition_on_problem_list_pair
    (host : Host) (self : FlowCheckPointXblock) (p q : string)
    (s1 s2 : Score) :
  fetched_scores host self [p] = [s1] ->
  fetched_scores host self [q] = [s2] ->
  condition_on_problem_list host self [p; q]
    = compare_scores self (VNum (correct s1 + correct s2))
        (VNum (total s1 + total s2)).
Proof.
  intros Hp Hq.
  assert (Hpq : fetched_scores host self [p; q] = [s1; s2])
    by (rewrite (fetched_scores_cons host self p [q]), Hp, Hq; reflexivity).
  rewrite (condition_on_two_scores host self [p; q] s1 s2 Hpq).
  unfold sum_correct, sum_total. cbn [map fold_right].
  rewrite !Z.add_0_r. reflexivity.
Qed.

Lemma condition_on_problem_list_pair_witness :
  fetched_scores demo_host average_of_two ["a"] = [mkScore 2 2] /\
  fetched_scores demo_host average_of_two ["b"] = [mkScore 3 3] /\
  condition_on_problem_list demo_host average_of_two ["a"; "b"]
    = compare_scores average_of_two (VNum (2 + 3)) (VNum (2 + 3)).
Proof.
  split; [reflexivity |]. split; [reflexivity |].
  apply (condition_on_problem_list_pair demo_host average_of_two "a" "b"
           (mkScore 2 2) (mkScore 3 3)); reflexivity.
Defined.

(** X14: the order of two problems does not matter. *)
Theorem condition_on_problem_list_swap
    (host : Host) (self : FlowCheckPointXblock) (p q : string) :
  condition_on_problem_list host self [p; q]
    = condition_on_problem_list host self [q; p].
Proof.
  unfold condition_on_problem_list.
  rewrite (fetched_scores_cons host self p [q]),
    (fetched_scores_cons host self q [p]).
  destruct (fetched_scores_single host self p) as [-> | [s ->]];
    destruct (fetched_scores_single host self q) as [-> | [s' ->]];
    try reflexivity.
  cbn [app]. rewrite !aggregate_two.
  unfold sum_correct, sum_total. simpl.
  f_equal; f_equal; lia.
Qed.

Lemma condition_on_one_score
    (host : Host) (self : FlowCheckPointXblock) (problems : list string)
    (s : Score) :
  fetched_scores host self problems = [s] ->
  condition_on_problem_list host self problems
    = compare_scores self (VNum (correct s)) (VNum (total s)).
Proof.
  intros H. unfold condition_on_problem_list.
  rewrite H, aggregate_one. reflexivity.
Qed.

(** Floor division cancels a common factor: a score counted twice has
    the percentage of the score counted once. *)
Lemma compare_scores_doubled
    (self : FlowCheckPointXblock) (correct total : Z) :
  compare_scores self (VNum (correct + correct)) (VNum (total + total))
    = compare_scores self (VNum correct) (VNum total).
Proof.
  destruct (Z.eq_dec total 0) as [-> | Hnz]; [reflexivity |].
  assert (Hnz2 : total + total <> 0) by lia.
  unfold compare_scores.
  rewrite (truthy_nonzero _ Hnz), (truthy_nonzero _ Hnz2),
    (percentage_nonzero _ _ Hnz), (percentage_nonzero _ _ Hnz2).
  replace (correct + correct) with (2 * correct) by lia.
  replace (total + total) with (2 * total) by lia.
  rewrite Z.div_mul_cancel_l by lia. reflexivity.
Qed.

(** X15: naming a problem twice gives the result of naming it once. *)
Theorem condition_on_problem_list_twice
    (host : Host) (self : FlowCheckPointXblock) (p : string) :
  condition_on_problem_list host self [p; p]
    = condition_on_problem_list host self [p].
Proof.
  destruct (fetched_scores_single host self p) as [Hp | [s Hp]].
  - unfold condition_on_problem_list.
    rewrite (fetched_scores_cons host self p [p]), Hp. reflexivity.
  - assert (Hpp : fetched_scores host self [p; p] = [s; s])
      by (rewrite (fetched_scores_cons host self p [p]), Hp; reflexivity).
    rewrite (condition_on_two_scores host self [p; p] s s Hpp),
      (condition_on_one_score host self [p] s Hp).
    unfold sum_correct, sum_total. cbn [map fold_right].
    rewrite !Z.add_0_r. apply compare_scores_doubled.
Qed.

(** ** Pairs of operators *)



(** ** The student view *)

Lemma parse_format_int (n : Z) : parse_int (format_int n) = Some n.
Proof.
  unfold parse_int, format_int.
  rewrite NilZero.isi.
  - simpl. rewrite DecimalZ.of_to. reflexivity.
  - destruct n; simpl; try discriminate.
    intros H. injection H as H. exact (DecimalPos.Unsigned.to_uint_nonnil _ H).
  - destruct n; simpl; try discriminate.
    intros H. injection H as H. exact (DecimalPos.Unsigned.to_uint_nonnil _ H).
Qed.

Lemma format_int_sign (n : Z) :
  (exists d, format_int n = String "-" d) <-> n < 0.
Proof.
  unfold format_int. destruct n as [| p | p]; simpl.
  - split; [intros [d H]; discriminate H | lia].
  - split; [| lia]. intros [d H]. exfalso.
    unfold NilZero.string_of_uint in H.
    destruct (Pos.to_uint p) as [| u | u | u | u | u | u | u | u | u | u];
      discriminate H.
  - split; [lia |]. intros _. eexists. reflexivity.
Qed.

Lemma format_int_injective (m n : Z) : format_int m = format_int n -> m = n.
Proof.
  intros H. apply (f_equal parse_int) in H.
  rewrite !parse_format_int in H. injection H as H. exact H.
Qed.

(** X19: the view names the tab to go to twice, consistently:
    ['default'] is ["tab_"] followed by the decimal numeral of
    [tab_to - 1], which reads back as [tab_to - 1], ['default_tab_id']
    is [tab_to] itself, and two blocks get the same tab name exactly
    when their [tab_to] is the same. *)
Theorem student_view_default_tab
    (vhost : ViewHost) (self : FlowCheckPointXblock)
    (context : option json) :
  init_arg (student_view vhost self context) "default"
    = Some (JString ("tab_" ++ format_int (tab_to self - 1))) /\
  parse_int (format_int (tab_to self - 1)) = Some (tab_to self - 1) /\
  init_arg (student_view vhost self context) "default_tab_id"
    = Some (JNumber (tab_to self)) /\
  forall (vhost' : ViewHost) (self' : FlowCheckPointXblock)
         (context' : option json),
    init_arg (student_view vhost' self' context') "default"
      = init_arg (student_view vhost self context) "default"
    <-> tab_to self' = tab_to self.
Proof.
  split; [reflexivity |]. split; [apply parse_format_int |].
  split; [reflexivity |].
  intros vhost' self' context'. cbn. split.
  - intros H. injection H as H.
    apply format_int_injective in H. lia.
  - intros ->. reflexivity.
Qed.

(** X20: the tab rule of the validation is what keeps the tab index
    from being negative: the view names a tab ["tab_-..."] exactly for
    the blocks on which [validate_field_data] reports the tab error. *)
Theorem student_view_negative_tab
    (vhost : ViewHost) (self : FlowCheckPointXblock)
    (context : option json) :
  (exists d,
     init_arg (student_view vhost self context) "default"
       = Some (JString ("tab_-" ++ d)))
  <-> In tab_error (validate_field_data self [] self).
Proof.
  assert (Hv : In tab_error (validate_field_data self [] self)
               <-> tab_to self <= 0).
  { unfold validate_field_data, add. fold tab_error. fold ref_error.
    assert (Hne : tab_error <> ref_error) by discriminate.
    destruct (Z.leb_spec (tab_to self) 0) as [Ht | Ht];
      destruct ((ref_value self <? 0) || (ref_value self >? 100))%bool;
      simpl; split; intros H; try lia; intuition congruence. }
  rewrite Hv.
  assert (Hs : tab_to self <= 0 <-> tab_to self - 1 < 0) by lia.
  rewrite Hs, <- format_int_sign.
  split; intros [d H]; exists d.
  - cbn in H. injection H as H. exact H.
  - cbn. rewrite H. reflexivity.
Qed.
